(** * The Paragraph block tool (src/index.js), embedded in Rocq

  The class [Paragraph] of [src/index.js] is a block tool for Editor.js.
  An instance owns one editable [DIV] (the surface, [this._element]) and
  one data record ([this._data]); the accessor pair [get data]/[set data]
  moves the text between the two.

  Modelling decisions, all taken from the source:
  - a JavaScript record is a finite map from property names to values
    ([gmap string value]); reading a missing property yields [undefined];
  - the instance is a Rocq record with one field per own property that the
    constructor and [renderSettings] assign; methods are functions that
    pass the instance explicitly ([St A]);
  - an exception raised by the JavaScript runtime or by the DOM is the
    [Throw] result;
  - a DOM element is a record of the attributes the code touches.  A string
    assigned to [innerHTML] is parsed by the DOM, and a read serializes the
    parsed content again: the markup read back after a write is given by
    [reserialize], a parameter of the whole development of which nothing is
    assumed.  Only the empty string is known to read back as written.  The
    plain-text view [textContent] is a parameter of the key handler;
  - [classList.add] and [classList.remove] raise on an empty token and on a
    token with white space;
  - a JavaScript string is a Rocq [string] whose characters stand for the
    code units below 256. *)

From Stdlib Require Import Ascii.
From stdpp Require Import gmap strings list fin_maps.

Open Scope string_scope.

(** ** JavaScript values *)

Module JS.

(** The primitive values a data record of this tool holds. *)
Inductive value : Type :=
| VUndefined
| VNull
| VBool (b : bool)
| VString (s : string).

(** ToBoolean. *)
Definition truthy (v : value) : bool :=
  match v with
  | VUndefined | VNull => false
  | VBool b => b
  | VString s => negb (String.eqb s "")
  end.

(** ToString. *)
Definition to_string (v : value) : string :=
  match v with
  | VUndefined => "undefined"
  | VNull => "null"
  | VBool true => "true"
  | VBool false => "false"
  | VString s => s
  end.

(** [!v] *)
Definition js_not (v : value) : value := VBool (negb (truthy v)).

(** [a || b] *)
Definition js_or (a b : value) : value := if truthy a then a else b.

(** [a + b] when one operand is a string: both sides are converted with
    ToString and concatenated.  The other case is numeric addition, whose
    result is a number; no number occurs in this model and [merge], the
    only user of [+], always has a string on the left
    (see [get_data_text] below). *)
Definition js_add (a b : value) : value :=
  match a, b with
  | VString s, _ => VString (s +:+ to_string b)
  | _, VString t => VString (to_string a +:+ t)
  | _, _ => VUndefined
  end.

(** [o.k]: an absent property reads as [undefined]. *)
Definition prop (o : gmap string value) (k : string) : value :=
  default VUndefined (o !! k).

(** Result of a call that may raise: a [TypeError] of the language, or one
    of the two exceptions of [DOMTokenList]. *)
Inductive error : Type :=
| TypeError
| SyntaxError
| InvalidCharacterError.

Inductive result (A : Type) : Type :=
| Return (a : A)
| Throw (e : error).
Arguments Return {A} a.
Arguments Throw {A} e.

(** *** String.prototype.trim *)

(** White space and line terminators of ECMAScript among the code units
    below 256: TAB, LF, VT, FF, CR, SPACE and NO-BREAK SPACE. *)
Definition is_ws (c : ascii) : bool :=
  let n := nat_of_ascii c in
  ((9 <=? n) && (n <=? 13) || (n =? 32) || (n =? 160))%nat.

Fixpoint trimStart (s : string) : string :=
  match s with
  | EmptyString => EmptyString
  | String c s' => if is_ws c then trimStart s' else s
  end.

Fixpoint trimEnd (s : string) : string :=
  match s with
  | EmptyString => EmptyString
  | String c s' =>
      let r := trimEnd s' in
      if is_ws c && String.eqb r "" then EmptyString else String c r
  end.

Definition trim (s : string) : string := trimEnd (trimStart s).

(** Every character of [s] is white space. *)
Fixpoint all_ws (s : string) : bool :=
  match s with
  | EmptyString => true
  | String c s' => is_ws c && all_ws s'
  end.

End JS.
Export JS.

(** A data record ([ParagraphData], and any other object the host hands in). *)
Abbreviation obj := (gmap string value).

(** ** The DOM elements the tool creates *)

Module DOM.

Record Element : Type := mkElement {
  tagName : string;
  classList : list string;
  contentEditable : option bool;
  dataset_placeholder : option string;
  innerHTML : string;
  (** listeners registered with [addEventListener] *)
  on_keyup : bool;
  on_click : bool;
}.

(** [document.createElement(tag)] *)
Definition createElement (tag : string) : Element :=
  {| tagName := tag; classList := []; contentEditable := None;
     dataset_placeholder := None; innerHTML := "";
     on_keyup := false; on_click := false |}.

Definition with_classList (f : list string → list string) (e : Element) : Element :=
  {| tagName := tagName e; classList := f (classList e);
     contentEditable := contentEditable e;
     dataset_placeholder := dataset_placeholder e; innerHTML := innerHTML e;
     on_keyup := on_keyup e; on_click := on_click e |}.

(** Appending a token to a token list, which holds each token once. *)
Definition token_add (c : string) (l : list string) : list string :=
  if decide (c ∈ l) then l else l ++ [c].

Definition token_remove (c : string) (l : list string) : list string :=
  filter (λ x, x ≠ c) l.

(** ASCII white space of the DOM standard: TAB, LF, FF, CR and SPACE. *)
Definition is_ascii_ws (c : ascii) : bool :=
  let n := nat_of_ascii c in
  ((n =? 9) || (n =? 10) || (n =? 12) || (n =? 13) || (n =? 32))%nat.

Fixpoint has_ascii_ws (s : string) : bool :=
  match s with
  | EmptyString => false
  | String c s' => is_ascii_ws c || has_ascii_ws s'
  end.

(** The check [DOMTokenList] makes on a token it is given: an empty token
    is a [SyntaxError], white space in it an [InvalidCharacterError]. *)
Definition token_check (c : string) : result unit :=
  if String.eqb c "" then Throw SyntaxError
  else if has_ascii_ws c then Throw InvalidCharacterError
  else Return tt.

(** All tokens are checked, in order, before any is added or removed. *)
Fixpoint tokens_check (cs : list string) : result unit :=
  match cs with
  | [] => Return tt
  | c :: cs' =>
      match token_check c with
      | Throw err => Throw err
      | Return _ => tokens_check cs'
      end
  end.

(** [e.classList.add(c1, c2, ...)] *)
Definition classList_add (cs : list string) (e : Element) : result Element :=
  match tokens_check cs with
  | Throw err => Throw err
  | Return _ =>
      Return (with_classList (λ l, foldl (λ acc c, token_add c acc) l cs) e)
  end.

(** [e.classList.remove(c)] *)
Definition classList_remove (c : string) (e : Element) : result Element :=
  match tokens_check [c] with
  | Throw err => Throw err
  | Return _ => Return (with_classList (token_remove c) e)
  end.

(** [e.contentEditable = b] *)
Definition set_contentEditable (b : bool) (e : Element) : Element :=
  {| tagName := tagName e; classList := classList e;
     contentEditable := Some b;
     dataset_placeholder := dataset_placeholder e; innerHTML := innerHTML e;
     on_keyup := on_keyup e; on_click := on_click e |}.

(** [e.dataset.placeholder = s] *)
Definition set_placeholder (s : string) (e : Element) : Element :=
  {| tagName := tagName e; classList := classList e;
     contentEditable := contentEditable e;
     dataset_placeholder := Some s; innerHTML := innerHTML e;
     on_keyup := on_keyup e; on_click := on_click e |}.

(** The element with other content, whose serialization is [html]. *)
Definition with_innerHTML (html : string) (e : Element) : Element :=
  {| tagName := tagName e; classList := classList e;
     contentEditable := contentEditable e;
     dataset_placeholder := dataset_placeholder e; innerHTML := html;
     on_keyup := on_keyup e; on_click := on_click e |}.

(** [e.addEventListener('keyup', ...)] and [e.addEventListener('click', ...)] *)
Definition listen_keyup (e : Element) : Element :=
  {| tagName := tagName e; classList := classList e;
     contentEditable := contentEditable e;
     dataset_placeholder := dataset_placeholder e; innerHTML := innerHTML e;
     on_keyup := true; on_click := on_click e |}.

Definition listen_click (e : Element) : Element :=
  {| tagName := tagName e; classList := classList e;
     contentEditable := contentEditable e;
     dataset_placeholder := dataset_placeholder e; innerHTML := innerHTML e;
     on_keyup := on_keyup e; on_click := true |}.

(** The settings holder: a [DIV] with the appended children. *)
Record Holder : Type := mkHolder {
  holder_tag : string;
  holder_children : list Element;
}.

Record KeyboardEvent : Type := mkKeyboardEvent { code : string }.

(** [event.detail.data] of a paste event is the pasted element. *)
Record PasteEvent : Type := mkPasteEvent { detail_data : Element }.

(** *** Sample behaviour of the DOM, for the examples *)

(** A plain-text view: the markup without its tags. *)
Fixpoint strip_tags (inside : bool) (s : string) : string :=
  match s with
  | EmptyString => EmptyString
  | String c s' =>
      if inside
      then strip_tags (negb (Ascii.eqb c ">"%char)) s'
      else if Ascii.eqb c "<"%char then strip_tags true s'
           else String c (strip_tags false s')
  end.

(** How much of the start tag [<pre>] has just been read. *)
Definition pre_progress (st : nat) (c : ascii) : nat :=
  if Ascii.eqb c "<"%char then 1
  else match st with
       | 1 => if Ascii.eqb c "p"%char then 2 else 0
       | 2 => if Ascii.eqb c "r"%char then 3 else 0
       | 3 => if Ascii.eqb c "e"%char then 4 else 0
       | 4 => if Ascii.eqb c ">"%char then 5 else 0
       | _ => 0
       end.

(** A re-serialization that does two of the things the DOM does and copies
    everything else: an ampersand followed by a space, which starts no
    character reference, is read back as [&amp;], and a line feed directly
    after the start tag [<pre>] is dropped by the parser. *)
Fixpoint reserialize_from (st : nat) (s : string) : string :=
  match s with
  | EmptyString => EmptyString
  | String c s' =>
      if (st =? 5)%nat && Ascii.eqb c "010"%char
      then reserialize_from 0 s'
      else if Ascii.eqb c "&"%char
              && match s' with
                 | String d _ => Ascii.eqb d " "%char
                 | EmptyString => false
                 end
      then "&amp;" +:+ reserialize_from 0 s'
      else String c (reserialize_from (pre_progress st c) s')
  end.

Definition sample_reserialize (s : string) : string := reserialize_from 0 s.

End DOM.
Export DOM.

(** ** The class [Paragraph] *)

(** [this._CSS] *)
Record CSSNames : Type := mkCSS { block : string; wrapper : string }.

(** The part of the Editor.js API the tool calls: [api.styles.block] and
    [api.i18n.t]. *)
Record API : Type := mkAPI { styles_block : string; i18n_t : string → string }.

(** [ParagraphConfig]; a field left out of the configuration is [None]. *)
Record ParagraphConfig : Type := mkConfig {
  placeholder : option string;
  preserveBlank : option bool;
}.

(** The constructor's argument [{data, config, api, readOnly}];
    [data] may be absent. *)
Record Params : Type := mkParams {
  params_data : option obj;
  params_config : ParagraphConfig;
  params_api : API;
  params_readOnly : bool;
}.

(** The own properties of an instance.  [speakableButton] is [None] until
    [renderSettings] assigns it. *)
Record Paragraph : Type := mkParagraph {
  api : API;
  readOnly : bool;
  _CSS : CSSNames;
  _placeholder : string;
  _data : obj;
  _element : Element;
  _preserveBlank : bool;
  speakableButton : option Element;
}.

Definition with__data (d : obj) (this : Paragraph) : Paragraph :=
  {| api := api this; readOnly := readOnly this; _CSS := _CSS this;
     _placeholder := _placeholder this; _data := d; _element := _element this;
     _preserveBlank := _preserveBlank this;
     speakableButton := speakableButton this |}.

Definition with__element (e : Element) (this : Paragraph) : Paragraph :=
  {| api := api this; readOnly := readOnly this; _CSS := _CSS this;
     _placeholder := _placeholder this; _data := _data this; _element := e;
     _preserveBlank := _preserveBlank this;
     speakableButton := speakableButton this |}.

Definition with_speakableButton (b : option Element) (this : Paragraph) : Paragraph :=
  {| api := api this; readOnly := readOnly this; _CSS := _CSS this;
     _placeholder := _placeholder this; _data := _data this;
     _element := _element this; _preserveBlank := _preserveBlank this;
     speakableButton := b |}.

(** A method body: it reads and updates the instance and yields a value. *)
Definition St (A : Type) : Type := Paragraph → A * Paragraph.

Definition St_ret {A : Type} (a : A) : St A := λ this, (a, this).

Definition St_bind {A B : Type} (m : St A) (k : A → St B) : St B :=
  λ this, k (m this).1 (m this).2.

Notation "'do' x <- m ; k" := (St_bind m (λ x, k))
  (at level 10, x name, m at level 100, k at level 200, only parsing).

(** A call that raised ends the computation it is part of. *)
Definition result_bind {A B : Type} (m : result A) (k : A → result B) : result B :=
  match m with
  | Return a => k a
  | Throw err => Throw err
  end.

Notation "'try' x <- m ; k" := (result_bind m (λ x, k))
  (at level 10, x name, m at level 100, k at level 200, only parsing).

(** What a call returned, [fallback] standing for a call that raised. *)
Definition returned {A : Type} (fallback : A) (r : result A) : A :=
  match r with
  | Return a => a
  | Throw _ => fallback
  end.

Definition DEFAULT_PLACEHOLDER : string := "".

Definition FOCUSED : string := "ce-inline-tool--focused".

(** The microphone glyph of line 136.  It lies outside the code units below
    256 and is never inspected; a name stands for it. *)
Definition ICON : string := ":microphone:".

(** The static declarations. *)
Definition conversionConfig : string * string := ("text", "text").
Definition pasteConfig : list string := ["P"].
Definition isReadOnlySupported : bool := true.

(** [get data()] (lines 262-268).  The record it returns is the backing
    record itself; records are passed by value here, so the updated record
    is both stored and returned. *)
Definition get_data : St obj := λ this,
  let text := innerHTML (_element this) in
  let d := <["text" := VString text]> (_data this) in
  (d, with__data d this).

(** [render()] *)
Definition render : St Element := λ this, (_element this, this).

(** [validate(savedData)] (lines 193-199).  [savedData.text.trim()] raises
    when [text] is [undefined] or [null] (no property can be read from
    them) and when it is a boolean ([trim] is then [undefined] and cannot
    be called). *)
Definition validate (savedData : obj) (this : Paragraph) : result bool :=
  match prop savedData "text" with
  | VString s =>
      if String.eqb (trim s) "" && negb (_preserveBlank this)
      then Return false
      else Return true
  | _ => Throw TypeError
  end.

(** [save(toolsContent)] (lines 207-212) *)
Definition save (toolsContent : Element) : St obj :=
  let text := VString (innerHTML toolsContent) in
  do d <- get_data;
  St_ret ({[ "text" := text; "speakable" := prop d "speakable" ]} : obj).

(** [this.speakable], read by the click listener (line 142).  An instance
    has the own properties of [Paragraph] above and the class defines the
    accessor [data] and the methods only: no property is named [speakable],
    so the read yields [undefined]. *)
Definition this_speakable (this : Paragraph) : value := VUndefined.

(** [drawView()] (lines 95-108), on the properties it reads.  The call of
    [classList.add] raises when a class name is not a valid token. *)
Definition drawView (css : CSSNames) (a : API) (ph : string) (ro : bool)
  : result Element :=
  let div := createElement "DIV" in
  try div <- classList_add [wrapper css; block css] div;
  let div := set_contentEditable false div in
  let div := set_placeholder (i18n_t a ph) div in
  Return (if negb ro then listen_keyup (set_contentEditable true div) else div).

Section WithDOM.

(** [reserialize s]: the markup an element reads back from [innerHTML]
    after the string [s], not empty, was assigned to it. *)
Variable reserialize : string → string.

(** The markup read back after [s] was assigned: an empty string leaves the
    element without content. *)
Definition read_back (s : string) : string :=
  if String.eqb s "" then "" else reserialize s.

(** [e.innerHTML = s] *)
Definition set_innerHTML (s : string) (e : Element) : Element :=
  with_innerHTML (read_back s) e.

(** [set data(data)] (lines 278-282); [None] is an absent argument, for
    which [data || {}] takes the empty record.  The DOM converts the value
    written to [innerHTML] with ToString. *)
Definition set_data (data : option obj) : St unit := λ this,
  let d := default ∅ data in
  let this := with__data d this in
  let html := to_string (js_or (prop (_data this) "text") (VString "")) in
  (tt, with__element (set_innerHTML html (_element this)) this).

(** [constructor({data, config, api, readOnly})] (lines 46-70).  It raises
    when [drawView] does. *)
Definition new_Paragraph (params : Params) : result Paragraph :=
  let a := params_api params in
  let ro := params_readOnly params in
  let config := params_config params in
  let css := {| block := styles_block a; wrapper := "ce-paragraph" |} in
  let ph := match placeholder config with
            | Some s => if truthy (VString s) then s else DEFAULT_PLACEHOLDER
            | None => DEFAULT_PLACEHOLDER
            end in
  try el <- drawView css a ph ro;
  let this :=
    {| api := a; readOnly := ro; _CSS := css; _placeholder := ph;
       _data := ∅; _element := el;
       _preserveBlank := match preserveBlank config with
                         | Some b => b
                         | None => false
                         end;
       speakableButton := None |} in
  Return (set_data (params_data params) this).2.

(** [renderSettings()] (lines 119-156).  The click listener it registers
    is [speakableButton_click] below. *)
Definition renderSettings : St (result Holder) := λ this,
  let button := createElement "SPAN" in
  match classList_add ["ce-settings__button"] button with
  | Throw err => (Throw err, this)
  | Return button =>
      let d := (get_data this).1 in
      let this := (get_data this).2 in
      match (if truthy (prop d "speakable")
             then classList_add [FOCUSED] button else Return button) with
      | Throw err => (Throw err, this)
      | Return button =>
          let button := set_innerHTML ICON button in
          let button := listen_click button in
          (Return {| holder_tag := "DIV"; holder_children := [button] |},
           with_speakableButton (Some button) this)
      end
  end.

(** [setSpeakable(value)] (lines 158-168).  In the literal
    [{speakable: value, ...this.data}] the spread comes last, so a property
    of [this.data] replaces an earlier one of the same name: the union is
    biased to [this.data].  A missing button raises on [.classList], after
    the data has been stored. *)
Definition setSpeakable (v : value) : St (result unit) :=
  do d <- get_data;
  do _u <- set_data (Some (d ∪ {["speakable" := v]}));
  λ this,
    match speakableButton this with
    | None => (Throw TypeError, this)
    | Some b =>
        match (if truthy v then classList_add [FOCUSED] b
               else classList_remove FOCUSED b) with
        | Throw err => (Throw err, this)
        | Return b => (Return tt, with_speakableButton (Some b) this)
        end
    end.

(** The click listener of the button (lines 141-143):
    [() => { this.setSpeakable(!this.speakable); }] *)
Definition speakableButton_click : St (result unit) := λ this,
  setSpeakable (js_not (this_speakable this)) this.

(** [merge(data)] (lines 176-183): [this.data] is read twice. *)
Definition merge (data : obj) : St unit :=
  do d1 <- get_data;
  do d2 <- get_data;
  let newData : obj :=
    {[ "text" := js_add (prop d1 "text") (prop data "text");
       "speakable" := prop d2 "speakable" ]} in
  set_data (Some newData).

(** [onPaste(event)] (lines 219-225) *)
Definition onPaste (event : PasteEvent) : St unit :=
  let data : obj := {[ "text" := VString (innerHTML (detail_data event)) ]} in
  set_data (Some data).

Section QuirkNormalizer.

(** [textContent tc html]: the plain text the DOM reports for an element
    whose markup is [html]. *)
Variable textContent : string → string.

(** [onKeyUp(e)] (lines 78-88) *)
Definition onKeyUp (e : KeyboardEvent) : St unit := λ this,
  if negb (String.eqb (code e) "Backspace") && negb (String.eqb (code e) "Delete")
  then (tt, this)
  else
    if String.eqb (textContent (innerHTML (_element this))) ""
    then (tt, with__element (set_innerHTML "" (_element this)) this)
    else (tt, this).

(** A key release on the surface runs the handler when [drawView]
    registered it (lines 102-105). *)
Definition keyup (e : KeyboardEvent) : St unit := λ this,
  if on_keyup (_element this) then onKeyUp e this else (tt, this).

End QuirkNormalizer.

(** ** Sample instances *)

Definition sample_api : API := {| styles_block := "cdx-block"; i18n_t := λ s, s |}.

(** An instance that no constructor call returned. *)
Definition unconstructed : Paragraph :=
  {| api := sample_api; readOnly := true;
     _CSS := {| block := ""; wrapper := "" |}; _placeholder := "";
     _data := ∅; _element := createElement "DIV"; _preserveBlank := false;
     speakableButton := None |}.

Definition sample_params (data : option obj) : Params :=
  {| params_data := data;
     params_config := {| placeholder := None; preserveBlank := None |};
     params_api := sample_api; params_readOnly := false |}.

Definition sample_params_keep_blank (data : option obj) : Params :=
  {| params_data := data;
     params_config := {| placeholder := None; preserveBlank := Some true |};
     params_api := sample_api; params_readOnly := false |}.

(** [new Paragraph({data, config: {}, api, readOnly: false})] *)
Definition sample_block (data : option obj) : Paragraph :=
  returned unconstructed (new_Paragraph (sample_params data)).

(** The same with [config: {preserveBlank: true}]. *)
Definition sample_block_keep_blank (data : option obj) : Paragraph :=
  returned unconstructed (new_Paragraph (sample_params_keep_blank data)).

(** ** Properties of the data record *)

(** The [text] of a record is a string or is missing, as [ParagraphData]
    declares it. *)
Definition text_absent_or_string (o : obj) : Prop :=
  o !! "text" = None ∨ ∃ s, o !! "text" = Some (VString s).

(** The surface and the record agree: the markup is the record's [text],
    a missing [text] counting as the empty string. *)
Definition consistent (this : Paragraph) : Prop :=
  match _data this !! "text" with
  | Some (VString s) => innerHTML (_element this) = s
  | None => innerHTML (_element this) = ""
  | Some _ => False
  end.

(** The string the setter writes to the surface for the stored record. *)
Definition written (this : Paragraph) : string :=
  to_string (js_or (prop (_data this) "text") (VString "")).

(** The surface shows the record: its markup is what the DOM reads back
    for the record's [text]. *)
Definition reflects (this : Paragraph) : Prop :=
  innerHTML (_element this) = read_back (written this).

(** The calls the host drives a block through. *)
Inductive lifecycle : Type :=
| DataSet (R : option obj)
| DataGet
| Merge (D : obj)
| OnPaste (event : PasteEvent)
| SetSpeakable (v : value)
| Save (toolsContent : Element).

(** The instance after a call has returned or raised. *)
Definition run (c : lifecycle) (this : Paragraph) : Paragraph :=
  match c with
  | DataSet R => (set_data R this).2
  | DataGet => (get_data this).2
  | Merge D => (merge D this).2
  | OnPaste event => (onPaste event this).2
  | SetSpeakable v => (setSpeakable v this).2
  | Save toolsContent => (save toolsContent this).2
  end.

(** The button shows the active state. *)
Definition focused (this : Paragraph) : Prop :=
  ∃ b, speakableButton this = Some b ∧ FOCUSED ∈ classList b.

(** The configuration of an instance, which the constructor fixes. *)
Definition configuration (this : Paragraph)
  : API * bool * CSSNames * string * bool :=
  (api this, readOnly this, _CSS this, _placeholder this, _preserveBlank this).

(** Everything of an element but its markup. *)
Definition chrome (e : Element)
  : string * list string * option bool * option string * bool * bool :=
  (tagName e, classList e, contentEditable e, dataset_placeholder e,
   on_keyup e, on_click e).

(** The button [renderSettings] builds, shown active or not. *)
Definition settings_button (active : bool) : Element :=
  {| tagName := "SPAN";
     classList := if active then ["ce-settings__button"; FOCUSED]
                  else ["ce-settings__button"];
     contentEditable := None; dataset_placeholder := None;
     innerHTML := read_back ICON; on_keyup := false; on_click := true |}.

(** [setSpeakable] called with each value of a list in turn. *)
Definition setSpeakable_all (vs : list value) (this : Paragraph) : Paragraph :=
  foldl (λ this v, (setSpeakable v this).2) this vs.

(** The use the host makes of [conversionConfig], as the comments of lines
    232-233 give it: the string exported from a block is the [export]
    property of its saved data, and a string is imported by filling the
    [import] property of the data of a new block. *)
Definition conversion_export (saved : obj) : value := prop saved conversionConfig.1.

Definition conversion_import (s : string) : obj := {[ conversionConfig.2 := VString s ]}.

(** ** Strings *)

Example trim_inner_space : trim "  a b  " = "a b".
Proof. reflexivity. Qed.

Example trim_line_breaks : trim (String "009" (String "010" "x")) = "x".
Proof. reflexivity. Qed.

Example trim_no_break_space : trim (String "160" "") = "".
Proof. reflexivity. Qed.

Example strip_tags_br : strip_tags false "<br>" = "" ∧ strip_tags false "a<b>c</b>" = "ac".
Proof. split; reflexivity. Qed.

Example sample_reserialize_ampersand : sample_reserialize "a & b" = "a &amp; b".
Proof. reflexivity. Qed.

Example sample_reserialize_pre :
  sample_reserialize ("<pre>" +:+ String "010" "x</pre>") = "<pre>x</pre>".
Proof. reflexivity. Qed.

Example sample_reserialize_plain :
  sample_reserialize "Hello <b>World</b><br>" = "Hello <b>World</b><br>".
Proof. reflexivity. Qed.

Lemma trimStart_all_ws s : all_ws (trimStart s) = all_ws s.
Proof.
  induction s as [|c s IH]; cbn; [done|].
  destruct (is_ws c) eqn:Hc; cbn; [done|]. by rewrite Hc.
Qed.

Lemma trimEnd_empty s : trimEnd s = "" ↔ all_ws s = true.
Proof.
  induction s as [|c s IH]; cbn; [done|].
  destruct (is_ws c); cbn.
  - destruct (String.eqb_spec (trimEnd s) "") as [E|E].
    + split; [intros _; by apply IH | done].
    + split; [done | intros H; apply IH in H; done].
  - split; done.
Qed.

(** [s.trim() === ''] exactly when [s] holds white space only. *)
Lemma trim_empty s : trim s = "" ↔ all_ws s = true.
Proof. unfold trim. by rewrite trimEnd_empty, trimStart_all_ws. Qed.

Lemma to_string_or_empty s : to_string (js_or (VString s) (VString "")) = s.
Proof.
  unfold js_or; cbn. destruct (String.eqb_spec s "") as [->|]; done.
Qed.

Lemma read_back_empty : read_back "" = "".
Proof. done. Qed.

(** ** The accessor pair *)

Lemma get_data_result this : (get_data this).1 = _data (get_data this).2.
Proof. done. Qed.

Lemma get_data_text this :
  prop (get_data this).1 "text" = VString (innerHTML (_element this)).
Proof. unfold get_data, prop; cbn. by rewrite lookup_insert_eq. Qed.

Lemma get_data_other this k :
  k ≠ "text" → (get_data this).1 !! k = _data this !! k.
Proof. intros H. unfold get_data; cbn. by rewrite lookup_insert_ne. Qed.

Lemma get_data_element this : _element (get_data this).2 = _element this.
Proof. done. Qed.

Lemma get_data_twice this : get_data (get_data this).2 = get_data this.
Proof. unfold get_data; cbn. by rewrite insert_insert_eq. Qed.

Lemma set_data_data R this : _data (set_data R this).2 = default ∅ R.
Proof. done. Qed.

Lemma set_data_markup R this :
  innerHTML (_element (set_data R this).2)
  = read_back (to_string (js_or (prop (default ∅ R) "text") (VString ""))).
Proof. done. Qed.

(** What [set] followed by [get] returns, for any argument. *)
Lemma set_get R this :
  (get_data (set_data R this).2).1
  = <["text" := VString (read_back
                           (to_string (js_or (prop (default ∅ R) "text") (VString ""))))]>
      (default ∅ R).
Proof. done. Qed.

(** C1, as the code has it.  After [set(R)], [get()] returns a record whose
    [text] is the markup the surface reads back for what was written: for a
    string [R.text] the re-serialization of that string, which is [R.text]
    itself whenever the DOM reads it back unchanged, and the empty string
    when [R.text] is missing, undefined, null or empty.  The [speakable] of
    the record is [R.speakable], and an absent argument is stored as the
    empty record. *)
Theorem set_get_roundtrip (this : Paragraph) (R : option obj) :
  let R' : obj := default ∅ R in
  let r : obj := (get_data (set_data R this).2).1 in
  r !! "text"
  = Some (VString (read_back (to_string (js_or (prop R' "text") (VString "")))))
  ∧ (∀ s, R' !! "text" = Some (VString s) → r !! "text" = Some (VString (read_back s)))
  ∧ (∀ s, R' !! "text" = Some (VString s) → reserialize s = s →
          r !! "text" = Some (VString s))
  ∧ (R' !! "text" = None → r !! "text" = Some (VString ""))
  ∧ (prop R' "text" = VUndefined ∨ prop R' "text" = VNull →
     r !! "text" = Some (VString ""))
  ∧ r !! "speakable" = R' !! "speakable"
  ∧ set_data None this = set_data (Some ∅) this.
Proof.
  intros R' r. subst r. rewrite set_get. fold R'.
  split_and!; [ | | | | | | done].
  - by rewrite lookup_insert_eq.
  - intros s Hs. rewrite lookup_insert_eq. unfold prop. rewrite Hs.
    cbn [default from_option id]. by rewrite to_string_or_empty.
  - intros s Hs Hr. rewrite lookup_insert_eq. unfold prop. rewrite Hs.
    cbn [default from_option id]. rewrite to_string_or_empty.
    unfold read_back. destruct (String.eqb_spec s "") as [->|]; [done|].
    by rewrite Hr.
  - intros Hs. rewrite lookup_insert_eq. unfold prop. by rewrite Hs.
  - intros [Hs|Hs]; rewrite lookup_insert_eq, Hs; done.
  - by rewrite lookup_insert_ne.
Qed.

(** C10. [get] leaves the surface as it was: the element, and so its
    markup, is unchanged; of the instance only the [text] entry of the
    backing record is overwritten, with the markup of the surface. *)
Theorem get_data_frame (this : Paragraph) :
  let after := (get_data this).2 in
  (get_data this).1 = _data after
  ∧ _element after = _element this
  ∧ innerHTML (_element after) = innerHTML (_element this)
  ∧ _data after !! "text" = Some (VString (innerHTML (_element this)))
  ∧ (∀ k, k ≠ "text" → _data after !! k = _data this !! k)
  ∧ (api after, readOnly after, _CSS after, _placeholder after,
     _preserveBlank after, speakableButton after)
    = (api this, readOnly this, _CSS this, _placeholder this,
       _preserveBlank this, speakableButton this).
Proof.
  cbn. split_and!; [done | done | done | | | done].
  - by rewrite lookup_insert_eq.
  - intros k Hk. by rewrite lookup_insert_ne.
Qed.

(** C6, as the code has it.  [onPaste] replaces the backing record by one
    that holds only [text], the markup of the pasted element, whatever the
    record held before.  [get] then returns a record with only [text]: the
    markup the surface reads back for the pasted markup, which is the
    pasted markup itself whenever the DOM reads it back unchanged.  Its
    [speakable] is missing and reads as a false value. *)
Theorem onPaste_replaces (this : Paragraph) (event : PasteEvent) :
  let html := innerHTML (detail_data event) in
  let after := (onPaste event this).2 in
  _data after = {[ "text" := VString html ]}
  ∧ (get_data after).1 = {[ "text" := VString (read_back html) ]}
  ∧ (reserialize html = html → (get_data after).1 = {[ "text" := VString html ]})
  ∧ (get_data after).1 !! "speakable" = None
  ∧ truthy (prop (get_data after).1 "speakable") = false.
Proof.
  intros html after.
  assert (Hget : (get_data after).1 = {[ "text" := VString (read_back html) ]}).
  { subst after html. unfold onPaste. cbv zeta. rewrite set_get.
    cbn [default from_option id].
    unfold prop. rewrite lookup_singleton_eq. cbn [default from_option id].
    rewrite to_string_or_empty. by rewrite insert_singleton_eq. }
  split_and!; [done | done | | | ].
  - intros Hr. rewrite Hget. unfold read_back.
    destruct (String.eqb_spec html "") as [->|]; [done|]. by rewrite Hr.
  - rewrite Hget. by rewrite lookup_singleton_ne.
  - unfold prop. rewrite Hget. by rewrite lookup_singleton_ne.
Qed.

(** What [merge] stores and shows, for any argument. *)
Lemma merge_result (this : Paragraph) (D : obj) :
  let cur := innerHTML (_element this) in
  let txt := cur +:+ to_string (prop D "text") in
  _data (merge D this).2
  = {[ "text" := VString txt; "speakable" := prop (_data this) "speakable" ]}
  ∧ innerHTML (_element (merge D this).2) = read_back txt.
Proof.
  intros cur txt. unfold merge, St_bind.
  rewrite get_data_twice, get_data_text. fold cur.
  assert (Hsp : prop (get_data this).1 "speakable" = prop (_data this) "speakable").
  { unfold prop. by rewrite get_data_other. }
  rewrite Hsp. cbn [js_add]. fold txt. split; [done|].
  rewrite set_data_markup. cbn [default from_option id]. unfold prop at 1.
  rewrite lookup_insert_eq. cbn [default from_option id].
  by rewrite to_string_or_empty.
Qed.

(** C4. [merge(D)], for [D] with a string [text]: the backing record gets
    as [text] the markup of the surface followed by [D.text], nothing
    between them and nothing rewritten, and keeps the [speakable] the block
    had. *)
Theorem merge_concat (this : Paragraph) (D : obj) (t : string) :
  D !! "text" = Some (VString t) →
  let cur := innerHTML (_element this) in
  let after := (merge D this).2 in
  prop (_data after) "text" = VString (cur +:+ t)
  ∧ prop (_data after) "speakable" = prop (_data this) "speakable".
Proof.
  intros Ht cur after. subst after.
  destruct (merge_result this D) as [Hd _]. rewrite Hd.
  assert (HD : prop D "text" = VString t) by (unfold prop; by rewrite Ht).
  rewrite HD. cbn [to_string]. fold cur. split_and!.
  - unfold prop at 1. by rewrite lookup_insert_eq.
  - unfold prop at 1. rewrite lookup_insert_ne by done.
    by rewrite lookup_singleton_eq.
Qed.

(** ** The constructor *)

(** What the constructor leaves when it returns. *)
Lemma new_Paragraph_returns (params : Params) (this : Paragraph) :
  new_Paragraph params = Return this →
  api this = params_api params
  ∧ readOnly this = params_readOnly params
  ∧ _data this = default ∅ (params_data params)
  ∧ _preserveBlank this = default false (preserveBlank (params_config params))
  ∧ speakableButton this = None
  ∧ innerHTML (_element this)
    = read_back (to_string (js_or (prop (default ∅ (params_data params)) "text")
                                  (VString ""))).
Proof.
  unfold new_Paragraph, result_bind.
  destruct (drawView _ _ _ _) as [el|err]; [|done].
  intros [= <-]. cbn. split_and!; try done.
  all: by destruct (preserveBlank (params_config params)).
Qed.

Lemma sample_block_constructed (data : option obj) :
  new_Paragraph (sample_params data) = Return (sample_block data).
Proof. reflexivity. Qed.

Lemma sample_block_keep_blank_constructed (data : option obj) :
  new_Paragraph (sample_params_keep_blank data)
  = Return (sample_block_keep_blank data).
Proof. reflexivity. Qed.

(** ** Validation *)

(** [validate] returns exactly on a record whose [text] is a string. *)
Lemma validate_string (this : Paragraph) (d : obj) (s : string) :
  d !! "text" = Some (VString s) →
  validate d this
  = Return (negb (String.eqb (trim s) "" && negb (_preserveBlank this))).
Proof.
  intros H. unfold validate, prop. rewrite H. cbn [default from_option id].
  by destruct (String.eqb (trim s) "" && negb (_preserveBlank this)).
Qed.

Lemma default_preserveBlank (params : Params) (this : Paragraph) :
  new_Paragraph params = Return this →
  preserveBlank (params_config params) = None →
  _preserveBlank this = false.
Proof.
  intros Hn H. apply new_Paragraph_returns in Hn as (_ & _ & _ & Hp & _).
  by rewrite Hp, H.
Qed.

(** C5. On a record with a string [text], [validate] returns [false]
    exactly when the trimmed text is empty and [preserveBlank] is off, and
    [true] otherwise.  A text of white space only is rejected when the flag
    is off, which is the default of the constructor; every text, the empty
    one too, is accepted when the flag is on. *)
Theorem validate_policy (this : Paragraph) (d : obj) (s : string) :
  d !! "text" = Some (VString s) →
  (validate d this = Return false ↔ trim s = "" ∧ _preserveBlank this = false)
  ∧ (validate d this = Return true ↔ ¬ (trim s = "" ∧ _preserveBlank this = false))
  ∧ (all_ws s = true → _preserveBlank this = false → validate d this = Return false)
  ∧ (_preserveBlank this = true → validate d this = Return true)
  ∧ (∀ params fresh, new_Paragraph params = Return fresh →
                     preserveBlank (params_config params) = None →
                     _preserveBlank fresh = false).
Proof.
  intros H. rewrite (validate_string this d s H).
  split_and!.
  - destruct (String.eqb_spec (trim s) "") as [E|E], (_preserveBlank this);
      cbn; split; try done; intros [? ?]; done.
  - destruct (String.eqb_spec (trim s) "") as [E|E], (_preserveBlank this);
      cbn; split; try done; try (intros ? [? ?]; done).
    intros Hn. exfalso. by apply Hn.
  - intros Hws Hpb. apply trim_empty in Hws. rewrite Hws, Hpb. done.
  - intros Hpb. rewrite Hpb. by rewrite andb_false_r.
  - apply default_preserveBlank.
Qed.

(** C8, as the code has it.  [validate] returns a boolean exactly on the
    records whose [text] is a string; on every other record of this model
    (a missing, [undefined], [null] or boolean [text]) it raises a
    [TypeError]. *)
Theorem validate_returns_iff_text_string (this : Paragraph) (d : obj) :
  ((∃ b, validate d this = Return b) ↔ ∃ s, d !! "text" = Some (VString s))
  ∧ (validate d this = Throw TypeError ↔ ¬ ∃ s, d !! "text" = Some (VString s)).
Proof.
  unfold validate, prop.
  destruct (d !! "text") as [[| | b | s]|] eqn:E; cbn [default from_option id].
  1-3, 5: split; (split; [ try (intros [? ?]; done) | try (intros [? ?]; done) ]);
          try (intros _; intros [? ?]; done); try done.
  destruct (String.eqb (trim s) "" && negb (_preserveBlank this)); split; split;
    try done; eauto.
  all: intros Hn; exfalso; apply Hn; eauto.
Qed.

(** ** The quirk normalizer *)

(** C7. [onKeyUp], on a release of Backspace or Delete with an empty
    plain text, sets the markup of the surface to the empty string and
    touches nothing else, so that [save] on the surface then yields the
    text [""]; on any other key, and on a deletion key while the plain
    text is not empty, the instance is left as it was. *)
Theorem onKeyUp_normalizes (textContent : string → string)
    (e : KeyboardEvent) (this : Paragraph) :
  let deletion := code e = "Backspace" ∨ code e = "Delete" in
  let after := (onKeyUp textContent e this).2 in
  (deletion → textContent (innerHTML (_element this)) = "" →
     after = with__element (set_innerHTML "" (_element this)) this
     ∧ innerHTML (_element after) = ""
     ∧ (save (_element after) after).1 !! "text" = Some (VString ""))
  ∧ (¬ deletion → after = this)
  ∧ (deletion → textContent (innerHTML (_element this)) ≠ "" → after = this).
Proof.
  intros deletion after. subst deletion after. unfold onKeyUp.
  destruct (String.eqb_spec (code e) "Backspace") as [Hb|Hb];
    destruct (String.eqb_spec (code e) "Delete") as [Hd|Hd]; cbn [negb andb].
  4: { split_and!; [intros [?|?]; done | done | intros [?|?]; done]. }
  all: destruct (String.eqb_spec (textContent (innerHTML (_element this))) "")
         as [Ht|Ht]; cbn [snd].
  all: split_and!; try done; try (intros Hn; exfalso; apply Hn; auto; fail).
  all: intros _ _; split_and!; try done.
Qed.

(** ** The speakable setting *)

(** The two class names the tool passes are valid tokens. *)
Lemma add_FOCUSED (b : Element) :
  classList_add [FOCUSED] b = Return (with_classList (token_add FOCUSED) b).
Proof. reflexivity. Qed.

Lemma remove_FOCUSED (b : Element) :
  classList_remove FOCUSED b = Return (with_classList (token_remove FOCUSED) b).
Proof. reflexivity. Qed.

(** The click listener always passes [true]. *)
Lemma click_passes_true (this : Paragraph) :
  speakableButton_click this = setSpeakable (VBool true) this.
Proof. done. Qed.

(** [setSpeakable] in one step: the record is stored through the setter,
    and the button, when there is one, gets or loses the class. *)
Lemma setSpeakable_state (v : value) (this : Paragraph) :
  setSpeakable v this
  = (match speakableButton this with
     | None => Throw TypeError
     | Some _ => Return tt
     end,
     with_speakableButton
       (with_classList (if truthy v then token_add FOCUSED
                        else token_remove FOCUSED) <$> speakableButton this)
       (set_data (Some ((get_data this).1 ∪ {["speakable" := v]}))
                 (get_data this).2).2).
Proof.
  unfold setSpeakable, St_bind.
  set (stored := (set_data _ _).2).
  assert (Hs : speakableButton stored = speakableButton this) by done.
  rewrite <- Hs. destruct (speakableButton stored) as [b|] eqn:E;
    cbn [fmap option_fmap option_map].
  - rewrite add_FOCUSED, remove_FOCUSED. by destruct (truthy v).
  - rewrite <- E. by destruct stored.
Qed.

(** The record [setSpeakable] stores: the spread of [this.data] comes last
    and wins over the new value. *)
Lemma setSpeakable_data (v : value) (this : Paragraph) :
  _data (setSpeakable v this).2
  = <["text" := VString (innerHTML (_element this))]> (_data this)
    ∪ {["speakable" := v]}.
Proof. by rewrite setSpeakable_state. Qed.

(** The surface after [setSpeakable]: its own markup, written again. *)
Lemma setSpeakable_element (v : value) (this : Paragraph) :
  _element (setSpeakable v this).2
  = set_innerHTML (innerHTML (_element this)) (_element this).
Proof.
  rewrite setSpeakable_state.
  cbn [snd _element with_speakableButton set_data with__element with__data _data].
  cbn [default from_option id].
  assert (Ht : prop ((get_data this).1 ∪ {["speakable" := v]}) "text"
               = VString (innerHTML (_element this))).
  { unfold prop. erewrite lookup_union_Some_l; [done|].
    unfold get_data; cbn. by rewrite lookup_insert_eq. }
  by rewrite Ht, to_string_or_empty.
Qed.

(** A record that has a [speakable] of its own keeps it. *)
Lemma setSpeakable_keeps (v v0 : value) (this : Paragraph) :
  _data this !! "speakable" = Some v0 →
  _data (setSpeakable v this).2 !! "speakable" = Some v0.
Proof.
  intros H. rewrite setSpeakable_data. apply lookup_union_Some_l.
  by rewrite lookup_insert_ne.
Qed.

(** A record without [speakable] gets the new value. *)
Lemma setSpeakable_fresh (v : value) (this : Paragraph) :
  _data this !! "speakable" = None →
  _data (setSpeakable v this).2 !! "speakable" = Some v.
Proof.
  intros H. rewrite setSpeakable_data. rewrite lookup_union_r.
  - by rewrite lookup_singleton_eq.
  - by rewrite lookup_insert_ne.
Qed.

(** The text and every further property are kept. *)
Lemma setSpeakable_others (v : value) (this : Paragraph) (k : string) :
  k ≠ "speakable" →
  _data (setSpeakable v this).2 !! k
  = <["text" := VString (innerHTML (_element this))]> (_data this) !! k.
Proof.
  intros H. rewrite setSpeakable_data.
  destruct (<["text" := VString (innerHTML (_element this))]> (_data this) !! k)
    as [x|] eqn:E.
  - by apply lookup_union_Some_l.
  - rewrite lookup_union_r by done. by rewrite lookup_singleton_ne.
Qed.

Lemma token_add_elem (c : string) (l : list string) : c ∈ token_add c l.
Proof.
  unfold token_add. case_decide; [done|]. apply elem_of_app. right.
  apply list_elem_of_singleton. done.
Qed.

Lemma token_remove_elem (c : string) (l : list string) : c ∉ token_remove c l.
Proof. unfold token_remove. intros H. apply list_elem_of_filter in H. by destruct H. Qed.

(** With a rendered button [setSpeakable(value)] returns and shows the
    button active exactly when [value] is a true value: the state of the
    button follows the argument, not the stored record. *)
Lemma setSpeakable_button (v : value) (this : Paragraph) (b : Element) :
  speakableButton this = Some b →
  (setSpeakable v this).1 = Return tt
  ∧ (focused (setSpeakable v this).2 ↔ truthy v = true).
Proof.
  intros Hb. rewrite setSpeakable_state, Hb. unfold focused.
  cbn [fst snd speakableButton with_speakableButton fmap option_fmap option_map].
  split; [done|]. destruct (truthy v).
  - split; [done|]. intros _. eexists. split; [done|].
    cbn. apply token_add_elem.
  - split; [|done]. intros (b' & Hb' & Hin). injection Hb' as <-.
    cbn in Hin. by apply token_remove_elem in Hin.
Qed.

(** Without [renderSettings] there is no button: the record is stored and
    the call raises. *)
Lemma setSpeakable_no_button (v : value) (this : Paragraph) :
  speakableButton this = None →
  (setSpeakable v this).1 = Throw TypeError.
Proof. intros Hb. by rewrite setSpeakable_state, Hb. Qed.

(** [renderSettings] in one step. *)
Lemma renderSettings_state (this : Paragraph) :
  let b := settings_button (truthy (prop (_data this) "speakable")) in
  renderSettings this
  = (Return {| holder_tag := "DIV"; holder_children := [b] |},
     with_speakableButton (Some b) (get_data this).2).
Proof.
  assert (Hsp : prop (get_data this).1 "speakable" = prop (_data this) "speakable").
  { unfold prop. by rewrite get_data_other. }
  unfold renderSettings.
  change (classList_add ["ce-settings__button"] (createElement "SPAN"))
    with (Return (with_classList (λ _, ["ce-settings__button"]) (createElement "SPAN"))).
  cbv zeta. rewrite Hsp. rewrite add_FOCUSED.
  by destruct (truthy (prop (_data this) "speakable")).
Qed.

(** C2, at a block whose record has [speakable: true]: after
    [renderSettings] and one click the stored [speakable] is still [true],
    not its negation, and the button is still shown active.  The [text] of
    the record is the markup the surface read back for ["a"]. *)
Theorem click_keeps_speakable_true :
  let this :=
    (renderSettings
       (sample_block (Some {[ "text" := VString "a"; "speakable" := VBool true ]}))).2 in
  let after := (speakableButton_click this).2 in
  prop (_data this) "speakable" = VBool true
  ∧ (speakableButton_click this).1 = Return tt
  ∧ prop (_data after) "text" = VString (read_back "a")
  ∧ prop (_data after) "speakable" = VBool true
  ∧ classList <$> speakableButton after
    = Some ["ce-settings__button"; "ce-inline-tool--focused"].
Proof. vm_compute. done. Qed.

(** The same click at [speakable: false] stores [false] again and shows
    the button active. *)
Lemma click_keeps_speakable_false :
  let this :=
    (renderSettings
       (sample_block (Some {[ "text" := VString "a"; "speakable" := VBool false ]}))).2 in
  let after := (speakableButton_click this).2 in
  prop (_data after) "speakable" = VBool false
  ∧ classList <$> speakableButton after
    = Some ["ce-settings__button"; "ce-inline-tool--focused"].
Proof. vm_compute. done. Qed.

(** C3, at a block whose record has no [speakable]: the first click stores
    [true] and the second click stores [true] again, so two clicks do not
    give back the missing (false) value the block started with. *)
Theorem two_clicks_from_absent :
  let this := (renderSettings (sample_block (Some {[ "text" := VString "a" ]}))).2 in
  let once := (speakableButton_click this).2 in
  let twice := (speakableButton_click once).2 in
  _data this !! "speakable" = None
  ∧ _data once !! "speakable" = Some (VBool true)
  ∧ _data twice !! "speakable" = Some (VBool true)
  ∧ truthy (prop (_data twice) "speakable") ≠ truthy (prop (_data this) "speakable").
Proof. vm_compute. split_and!; done. Qed.

(** From a stored [true] or [false] two clicks change nothing, since no
    click changes a stored value. *)
Lemma two_clicks_from_stored (v0 : value) (this : Paragraph) :
  _data this !! "speakable" = Some v0 →
  _data (speakableButton_click (speakableButton_click this).2).2 !! "speakable"
  = Some v0.
Proof.
  intros H. rewrite (click_passes_true this).
  rewrite (click_passes_true (setSpeakable (VBool true) this).2).
  apply (setSpeakable_keeps (VBool true) v0).
  apply (setSpeakable_keeps (VBool true) v0), H.
Qed.

(** ** Agreement of surface and record *)

Lemma set_data_reflects (R : option obj) (this : Paragraph) :
  reflects (set_data R this).2.
Proof. done. Qed.

Lemma get_data_consistent (this : Paragraph) : consistent (get_data this).2.
Proof. unfold consistent, get_data; cbn. by rewrite lookup_insert_eq. Qed.

Lemma merge_reflects (D : obj) (this : Paragraph) : reflects (merge D this).2.
Proof.
  unfold reflects, written. destruct (merge_result this D) as [Hd Hm].
  rewrite Hd, Hm. unfold prop. rewrite lookup_insert_eq.
  cbn [default from_option id]. by rewrite to_string_or_empty.
Qed.

Lemma setSpeakable_reflects (v : value) (this : Paragraph) :
  reflects (setSpeakable v this).2.
Proof.
  unfold reflects, written. rewrite setSpeakable_element.
  unfold prop. rewrite setSpeakable_others by done. rewrite lookup_insert_eq.
  cbn [default from_option id]. by rewrite to_string_or_empty.
Qed.

(** The constructor leaves the surface showing the record. *)
Lemma new_Paragraph_reflects (params : Params) (this : Paragraph) :
  new_Paragraph params = Return this → reflects this.
Proof.
  unfold new_Paragraph, result_bind.
  destruct (drawView _ _ _ _) as [el|err]; [|done].
  intros [= <-]. apply set_data_reflects.
Qed.

Lemma reflects_consistent (this : Paragraph) :
  reflects this → text_absent_or_string (_data this) →
  read_back (written this) = written this → consistent this.
Proof.
  unfold reflects, consistent, written, prop. intros Hr Ht Hb.
  destruct Ht as [Ht | [s Ht]]; rewrite Ht in *; cbn [default from_option id] in *.
  - by rewrite Hr.
  - rewrite to_string_or_empty in *. by rewrite Hr, Hb.
Qed.

(** C9, as the code has it.  After [get] and [save] the markup of the
    surface is the [text] of the backing record.  After [set], [merge],
    [onPaste] and [setSpeakable] the surface holds what the DOM reads back
    for the record's [text], a missing [text] counting as the empty string:
    the two agree whenever the DOM reads that text back unchanged, and a
    following [get] makes them agree in every case. *)
Theorem lifecycle_consistent :
  (∀ (c : lifecycle) (this : Paragraph),
     match c with
     | DataGet | Save _ => consistent (run c this)
     | _ => reflects (run c this)
     end)
  ∧ (∀ this : Paragraph,
       reflects this → text_absent_or_string (_data this) →
       read_back (written this) = written this → consistent this)
  ∧ (∀ (c : lifecycle) (this : Paragraph), consistent (run DataGet (run c this))).
Proof.
  split_and!.
  - intros c this.
    destruct c as [R | | D | event | v | toolsContent]; cbn [run].
    + apply set_data_reflects.
    + apply get_data_consistent.
    + apply merge_reflects.
    + unfold onPaste. apply set_data_reflects.
    + apply setSpeakable_reflects.
    + unfold save, St_bind, St_ret. cbn [snd]. apply get_data_consistent.
  - apply reflects_consistent.
  - intros c this. cbn [run]. apply get_data_consistent.
Qed.

(** * Further properties of the class *)

(** ** Saving and loading *)

Lemma save_result (toolsContent : Element) (this : Paragraph) :
  (save toolsContent this).1
  = {[ "text" := VString (innerHTML toolsContent);
       "speakable" := prop (_data this) "speakable" ]}.
Proof.
  unfold save, St_bind, St_ret. cbn [fst].
  replace (prop (get_data this).1 "speakable") with (prop (_data this) "speakable");
    [done|].
  unfold prop. by rewrite get_data_other.
Qed.

Lemma save_state (toolsContent : Element) (this : Paragraph) :
  (save toolsContent this).2 = (get_data this).2.
Proof. done. Qed.

Lemma read_back_fixed (s : string) : reserialize s = s → read_back s = s.
Proof.
  intros H. unfold read_back. destruct (String.eqb_spec s "") as [->|]; done.
Qed.

(** X1. Loading and saving: a block constructed from a record and saved at
    once, on the element [render] returns, yields a record with [text] and
    [speakable] only.  The [text] is what the surface reads back for the
    record's [text], which is that text itself whenever the DOM reads it
    back unchanged, and the empty string when the record has none; the
    [speakable] is the record's. *)
Theorem load_save_roundtrip (params : Params) (this : Paragraph) :
  new_Paragraph params = Return this →
  let R' : obj := default ∅ (params_data params) in
  let out : obj := (save (render this).1 this).1 in
  (∀ s, R' !! "text" = Some (VString s) →
        out = {[ "text" := VString (read_back s); "speakable" := prop R' "speakable" ]})
  ∧ (∀ s, R' !! "text" = Some (VString s) → reserialize s = s →
          out = {[ "text" := VString s; "speakable" := prop R' "speakable" ]})
  ∧ (R' !! "text" = None →
     out = {[ "text" := VString ""; "speakable" := prop R' "speakable" ]}).
Proof.
  intros Hn R' out. subst out. rewrite save_result. cbn [render fst].
  apply new_Paragraph_returns in Hn as (_ & _ & Hd & _ & _ & Hm).
  rewrite Hm, Hd. fold R'.
  split_and!.
  - intros s Hs. unfold prop at 1. rewrite Hs. cbn [default from_option id].
    by rewrite to_string_or_empty.
  - intros s Hs Hr. unfold prop at 1. rewrite Hs. cbn [default from_option id].
    by rewrite to_string_or_empty, read_back_fixed.
  - intros Hs. unfold prop at 1. by rewrite Hs.
Qed.

(** X2. Saved data is a fixed point of loading when the DOM reads the
    saved markup back unchanged: a block constructed from what another
    block saved from its own surface then saves the same record again,
    whatever its configuration. *)
Theorem save_reload_fixpoint (this : Paragraph) (params : Params)
    (fresh : Paragraph) :
  new_Paragraph params = Return fresh →
  params_data params = Some (save (_element this) this).1 →
  read_back (innerHTML (_element this)) = innerHTML (_element this) →
  (save (_element fresh) fresh).1 = (save (_element this) this).1.
Proof.
  intros Hn Hd Hr. rewrite !save_result.
  apply new_Paragraph_returns in Hn as (_ & _ & Hdata & _ & _ & Hm).
  rewrite Hm, Hdata, Hd, save_result.
  cbn [default from_option id].
  assert (Ht : prop ({[ "text" := VString (innerHTML (_element this));
                        "speakable" := prop (_data this) "speakable" ]} : obj) "text"
               = VString (innerHTML (_element this))).
  { unfold prop. by rewrite lookup_insert_eq. }
  assert (Hs : prop ({[ "text" := VString (innerHTML (_element this));
                        "speakable" := prop (_data this) "speakable" ]} : obj) "speakable"
               = prop (_data this) "speakable").
  { unfold prop at 1. rewrite lookup_insert_ne by done.
    by rewrite lookup_singleton_eq. }
  by rewrite Ht, Hs, to_string_or_empty, Hr.
Qed.

Lemma trim_eqb_all_ws (s : string) : String.eqb (trim s) "" = all_ws s.
Proof.
  destruct (String.eqb_spec (trim s) "") as [E|E].
  - symmetry. by apply trim_empty.
  - destruct (all_ws s) eqn:Hw; [|done]. by apply trim_empty in Hw.
Qed.

(** X3. What [save] returns is always accepted as input by [validate]: the
    call never raises, and it rejects the saved record exactly when the
    saved markup is white space only and [preserveBlank] is off. *)
Theorem save_then_validate (toolsContent : Element) (this : Paragraph) :
  validate (save toolsContent this).1 (save toolsContent this).2
  = Return (negb (all_ws (innerHTML toolsContent) && negb (_preserveBlank this))).
Proof.
  rewrite (validate_string _ _ (innerHTML toolsContent)).
  - by rewrite trim_eqb_all_ws.
  - rewrite save_result. by rewrite lookup_insert_eq.
Qed.

(** ** Merging *)

Lemma append_assoc (s1 s2 s3 : string) : (s1 +:+ s2) +:+ s3 = s1 +:+ s2 +:+ s3.
Proof.
  induction s1 as [|a s1 IH]; [done|].
  change (String a ((s1 +:+ s2) +:+ s3) = String a (s1 +:+ s2 +:+ s3)).
  by rewrite IH.
Qed.

(** The instance [merge] leaves, for any argument. *)
Lemma merge_state (D : obj) (this : Paragraph) :
  let txt := innerHTML (_element this) +:+ to_string (prop D "text") in
  (merge D this).2
  = with__element (set_innerHTML txt (_element this))
      (with__data {[ "text" := VString txt;
                     "speakable" := prop (_data this) "speakable" ]} this).
Proof.
  intros txt.
  destruct (merge_result this D) as [Hd Hm]. fold txt in Hd, Hm.
  assert (He : _element (merge D this).2
               = with_innerHTML (innerHTML (_element (merge D this).2)) (_element this))
    by done.
  rewrite Hm in He.
  assert (Hshape : (merge D this).2
                   = with__element (_element (merge D this).2)
                       (with__data (_data (merge D this).2) this)) by done.
  rewrite Hshape. by rewrite Hd, He.
Qed.

(** X5. Two merges in a row: the second appends to what the surface reads
    back after the first.  When the DOM reads the first merged text back
    unchanged, merging [D1] and then [D2] leaves the instance that one
    merge of the two texts, joined in that order, leaves. *)
Theorem merge_merge (D1 D2 : obj) (this : Paragraph) :
  let t1 := to_string (prop D1 "text") in
  let t2 := to_string (prop D2 "text") in
  let cur := innerHTML (_element this) in
  _data (merge D2 (merge D1 this).2).2 !! "text"
  = Some (VString (read_back (cur +:+ t1) +:+ t2))
  ∧ (read_back (cur +:+ t1) = cur +:+ t1 →
     (merge D2 (merge D1 this).2).2
     = (merge {[ "text" := VString (t1 +:+ t2) ]} this).2).
Proof.
  intros t1 t2 cur.
  rewrite (merge_state D2), (merge_state D1), (merge_state {[ "text" := _ ]}).
  cbn [_element _data with__element with__data innerHTML set_innerHTML with_innerHTML].
  fold t1 t2 cur. split.
  - by rewrite lookup_insert_eq.
  - intros Hr. rewrite Hr.
    assert (Hsp : prop ({[ "text" := VString (cur +:+ t1);
                           "speakable" := prop (_data this) "speakable" ]} : obj)
                       "speakable"
                  = prop (_data this) "speakable").
    { unfold prop at 1. rewrite lookup_insert_ne by done.
      by rewrite lookup_singleton_eq. }
    assert (Htx : prop ({[ "text" := VString (t1 +:+ t2) ]} : obj) "text"
                  = VString (t1 +:+ t2)).
    { unfold prop at 1. by rewrite lookup_singleton_eq. }
    rewrite Hsp, Htx. cbn [to_string]. by rewrite append_assoc.
Qed.

(** X6. Merging a record that has no [text]: the word [undefined] is
    appended to the text of the block in the backing record. *)
Theorem merge_missing_text (D : obj) (this : Paragraph) :
  D !! "text" = None →
  _data (merge D this).2 !! "text"
  = Some (VString (innerHTML (_element this) +:+ "undefined")).
Proof.
  intros HD.
  destruct (merge_result this D) as [Hd _]. rewrite Hd.
  unfold prop at 1. rewrite HD. cbn [default from_option id to_string].
  by rewrite lookup_insert_eq.
Qed.

(** X7. After [merge] the backing record has the two properties [text] and
    [speakable] and no other: further properties of the block's record and
    all properties of the argument but [text] are dropped. *)
Theorem merge_keys (D : obj) (this : Paragraph) :
  dom (_data (merge D this).2) = ({[ "text"; "speakable" ]} : gset string).
Proof.
  destruct (merge_result this D) as [Hd _]. rewrite Hd.
  by rewrite dom_insert_L, dom_singleton_L.
Qed.

(** ** The speakable setting, continued *)

(** X8. [setSpeakable] stores its argument only in a record that has no
    [speakable] yet; a stored [speakable] is kept.  The [text] becomes the
    markup of the surface and every other property is kept.  The surface
    gets its own markup written again: nothing of it changes but the
    markup, which becomes what the DOM reads back for the old markup. *)
Theorem setSpeakable_stores (v : value) (this : Paragraph) :
  let after := (setSpeakable v this).2 in
  _data after !! "speakable" = Some (default v (_data this !! "speakable"))
  ∧ _data after !! "text" = Some (VString (innerHTML (_element this)))
  ∧ (∀ k, k ≠ "speakable" → k ≠ "text" → _data after !! k = _data this !! k)
  ∧ chrome (_element after) = chrome (_element this)
  ∧ innerHTML (_element after) = read_back (innerHTML (_element this)).
Proof.
  intros after. subst after. split_and!.
  - destruct (_data this !! "speakable") as [v0|] eqn:E; cbn [default from_option id].
    + by apply setSpeakable_keeps.
    + by apply setSpeakable_fresh.
  - rewrite setSpeakable_others by done. by rewrite lookup_insert_eq.
  - intros k Hk Ht. rewrite setSpeakable_others by done.
    by rewrite lookup_insert_ne.
  - by rewrite setSpeakable_element.
  - by rewrite setSpeakable_element.
Qed.

(** X9. After a merge [setSpeakable] is without effect on the record:
    [merge] always writes a [speakable] property, which then wins over
    every new value. *)
Theorem setSpeakable_after_merge (v : value) (D : obj) (this : Paragraph) :
  _data (setSpeakable v (merge D this).2).2 !! "speakable"
  = Some (prop (_data this) "speakable").
Proof.
  apply setSpeakable_keeps.
  destruct (merge_result this D) as [Hd _]. rewrite Hd.
  rewrite lookup_insert_ne by done. by rewrite lookup_singleton_eq.
Qed.

(** X10. After a paste [setSpeakable] does store its argument, since the
    pasted record has no [speakable]; the [text] of the record becomes what
    the surface reads back for the pasted markup. *)
Theorem setSpeakable_after_paste (v : value) (event : PasteEvent)
    (this : Paragraph) :
  let after := (setSpeakable v (onPaste event this).2).2 in
  _data after !! "speakable" = Some v
  ∧ _data after !! "text"
    = Some (VString (read_back (innerHTML (detail_data event)))).
Proof.
  intros after. subst after. split.
  - apply setSpeakable_fresh. unfold onPaste. rewrite set_data_data.
    cbn [default from_option id]. by rewrite lookup_singleton_ne.
  - rewrite setSpeakable_others by done. rewrite lookup_insert_eq.
    unfold onPaste. rewrite set_data_markup. cbn [default from_option id].
    unfold prop. rewrite lookup_singleton_eq. cbn [default from_option id].
    by rewrite to_string_or_empty.
Qed.

(** X11. Once the record has a [speakable], no sequence of [setSpeakable]
    calls, with whatever values, changes it. *)
Theorem setSpeakable_all_keeps (vs : list value) (v0 : value) (this : Paragraph) :
  _data this !! "speakable" = Some v0 →
  _data (setSpeakable_all vs this) !! "speakable" = Some v0.
Proof.
  revert this. induction vs as [|v vs IH]; intros this H; [done|].
  cbn [setSpeakable_all foldl]. apply IH. by apply setSpeakable_keeps.
Qed.

(** X12. Before [renderSettings] has run there is no button:
    [setSpeakable] on a block the constructor has just returned raises a
    [TypeError], and has by then stored the record. *)
Theorem setSpeakable_before_renderSettings (v : value) (params : Params)
    (this : Paragraph) :
  new_Paragraph params = Return this →
  (setSpeakable v this).1 = Throw TypeError
  ∧ _data (setSpeakable v this).2 !! "speakable"
    = Some (default v (default ∅ (params_data params) !! "speakable")).
Proof.
  intros Hn. apply new_Paragraph_returns in Hn as (_ & _ & Hd & _ & Hb & _).
  split.
  - by apply setSpeakable_no_button.
  - rewrite <- Hd.
    destruct (_data this !! "speakable") as [v0|] eqn:E;
      cbn [default from_option id].
    + by apply setSpeakable_keeps.
    + by apply setSpeakable_fresh.
Qed.

Lemma renderSettings_has_button (this : Paragraph) :
  ∃ b, speakableButton (renderSettings this).2 = Some b.
Proof.
  rewrite renderSettings_state. cbn. eauto.
Qed.

(** X13. After [renderSettings] neither [setSpeakable] nor a click raises,
    and the button is shown active exactly when the argument is a true
    value; a click always shows it active. *)
Theorem setSpeakable_after_renderSettings (v : value) (this : Paragraph) :
  let rendered := (renderSettings this).2 in
  (setSpeakable v rendered).1 = Return tt
  ∧ (focused (setSpeakable v rendered).2 ↔ truthy v = true)
  ∧ (speakableButton_click rendered).1 = Return tt
  ∧ focused (speakableButton_click rendered).2.
Proof.
  intros rendered. destruct (renderSettings_has_button this) as [b Hb].
  fold rendered in Hb.
  destruct (setSpeakable_button v rendered b Hb) as [H1 H2].
  destruct (setSpeakable_button (VBool true) rendered b Hb) as [H3 H4].
  split_and!; [done | done | | ].
  - by rewrite click_passes_true.
  - rewrite click_passes_true. by apply H4.
Qed.

Lemma token_add_nil (c : string) : token_add c [] = [c].
Proof. unfold token_add. case_decide as H; [|done]. by apply elem_of_nil in H. Qed.

Lemma token_add_elem_of (c x : string) (l : list string) :
  x ∈ token_add c l ↔ x = c ∨ x ∈ l.
Proof.
  unfold token_add. case_decide as H.
  - split; [by right | intros [->|?]; done].
  - rewrite elem_of_app, list_elem_of_singleton. tauto.
Qed.

Lemma get_data_with_button (b : option Element) (this : Paragraph) :
  get_data (with_speakableButton b this)
  = ((get_data this).1, with_speakableButton b (get_data this).2).
Proof. done. Qed.

(** X14. [renderSettings] never raises.  It returns a holder with one
    child, the button it stores on the instance; the button has the
    settings class and a click listener and is shown active exactly when
    the stored [speakable] is a true value.  The surface is not changed,
    and rendering again returns the same holder and leaves the same
    instance. *)
Theorem renderSettings_button (this : Paragraph) :
  let after := (renderSettings this).2 in
  (∃ b, (renderSettings this).1
        = Return {| holder_tag := "DIV"; holder_children := [b] |}
        ∧ speakableButton after = Some b
        ∧ tagName b = "SPAN"
        ∧ "ce-settings__button" ∈ classList b
        ∧ on_click b = true
        ∧ (FOCUSED ∈ classList b ↔ truthy (prop (_data this) "speakable") = true))
  ∧ _element after = _element this
  ∧ renderSettings after = ((renderSettings this).1, after).
Proof.
  intros after. subst after. rewrite renderSettings_state.
  cbn [fst snd speakableButton with_speakableButton _element].
  split_and!.
  - eexists. split_and!; [done | done | done | | done | ].
    + cbn [classList settings_button].
      destruct (truthy (prop (_data this) "speakable")).
      * apply list_elem_of_here.
      * by apply list_elem_of_singleton.
    + cbn [classList settings_button].
      destruct (truthy (prop (_data this) "speakable")).
      * split; [done|]. intros _. apply list_elem_of_further, list_elem_of_here.
      * split; [|done]. intros H. by apply list_elem_of_singleton in H.
  - done.
  - rewrite renderSettings_state. rewrite get_data_with_button.
    cbn [fst snd _data with_speakableButton]. rewrite get_data_twice.
    assert (Hsp : prop (_data (get_data this).2) "speakable"
                  = prop (_data this) "speakable").
    { rewrite <- get_data_result. unfold prop. by rewrite get_data_other. }
    by rewrite Hsp.
Qed.

(** ** What the calls leave alone *)

Lemma Element_eq (e1 e2 : Element) :
  chrome e1 = chrome e2 → innerHTML e1 = innerHTML e2 → e1 = e2.
Proof.
  destruct e1, e2. unfold chrome. cbn. intros [= -> -> -> -> -> ->] ->. done.
Qed.

Lemma Paragraph_eq (p q : Paragraph) :
  configuration p = configuration q → _data p = _data q →
  _element p = _element q → speakableButton p = speakableButton q → p = q.
Proof.
  destruct p, q. unfold configuration. cbn.
  intros [= -> -> -> -> ->] -> -> ->. done.
Qed.

Lemma run_frame (c : lifecycle) (this : Paragraph) :
  configuration (run c this) = configuration this
  ∧ chrome (_element (run c this)) = chrome (_element this)
  ∧ (speakableButton (run c this) = None ↔ speakableButton this = None).
Proof.
  destruct c as [R | | D | event | v | toolsContent]; cbn [run].
  - done.
  - done.
  - by rewrite merge_state.
  - done.
  - rewrite setSpeakable_state. split_and!; [done | done |].
    cbn [snd speakableButton with_speakableButton].
    by destruct (speakableButton this).
  - done.
Qed.

(** X4. A [set] erases what earlier calls did to the record and to the
    surface: after any call of the life cycle, [set(R)] leaves the instance
    that [set(R)] alone leaves, up to the button, which [set] never
    touches.  In particular the last of two [set] calls wins. *)
Theorem set_data_overwrites (c : lifecycle) (R : option obj) (this : Paragraph) :
  (set_data R (run c this)).2
  = with_speakableButton (speakableButton (run c this)) (set_data R this).2.
Proof.
  destruct (run_frame c this) as (Hc & He & _).
  apply Paragraph_eq; [exact Hc | done | | done].
  apply Element_eq; [exact He | done].
Qed.

(** X15. No call of the life cycle changes the configuration of the
    instance, or anything of the surface but its markup (tag, classes,
    editability, placeholder, listeners), or whether a button exists;
    [renderSettings] changes neither configuration nor surface. *)
Theorem lifecycle_frame (c : lifecycle) (this : Paragraph) :
  configuration (run c this) = configuration this
  ∧ chrome (_element (run c this)) = chrome (_element this)
  ∧ (speakableButton (run c this) = None ↔ speakableButton this = None)
  ∧ configuration (renderSettings this).2 = configuration this
  ∧ _element (renderSettings this).2 = _element this.
Proof.
  destruct (run_frame c this) as (Hc & He & Hb).
  rewrite renderSettings_state. split_and!; done.
Qed.

(** X16. [get] and [save] leave an instance untouched when the record's
    [text] already is the markup of the surface. *)
Theorem read_synced_noop (toolsContent : Element) (this : Paragraph) :
  _data this !! "text" = Some (VString (innerHTML (_element this))) →
  get_data this = (_data this, this)
  ∧ (save toolsContent this).2 = this.
Proof.
  intros H. rewrite save_state.
  assert (Hg : get_data this = (_data this, this)).
  { unfold get_data. cbv zeta. rewrite insert_id by done. by destruct this. }
  by rewrite Hg.
Qed.

(** ** The key handler and the view *)

(** X17. [onKeyUp] is idempotent, for every plain-text view of the DOM, and
    never touches the backing record, the configuration, the button or
    anything of the surface but its markup. *)
Theorem onKeyUp_idempotent (textContent : string → string)
    (e : KeyboardEvent) (this : Paragraph) :
  let after := (onKeyUp textContent e this).2 in
  onKeyUp textContent e after = onKeyUp textContent e this
  ∧ _data after = _data this
  ∧ configuration after = configuration this
  ∧ speakableButton after = speakableButton this
  ∧ chrome (_element after) = chrome (_element this).
Proof.
  intros after. subst after. unfold onKeyUp.
  destruct (negb (String.eqb (code e) "Backspace")
            && negb (String.eqb (code e) "Delete")) eqn:Hk; cbn [snd].
  - done.
  - destruct (String.eqb (textContent (innerHTML (_element this))) "") eqn:Ht;
      cbn [snd].
    + cbn [_element with__element innerHTML set_innerHTML with_innerHTML].
      rewrite read_back_empty.
      by destruct (String.eqb (textContent "") "").
    + by rewrite Ht.
Qed.

(** The constructor raises exactly as the check of the block class does. *)
Lemma new_Paragraph_check (params : Params) :
  match token_check (styles_block (params_api params)) with
  | Throw err => new_Paragraph params = Throw err
  | Return _ => ∃ this, new_Paragraph params = Return this
  end.
Proof.
  unfold new_Paragraph, drawView, classList_add, result_bind.
  cbn [wrapper block tokens_check].
  change (token_check "ce-paragraph") with (Return tt).
  destruct (token_check (styles_block (params_api params))); [eauto | done].
Qed.

(** The view a returned constructor call has drawn. *)
Lemma new_Paragraph_view (params : Params) (this : Paragraph) :
  new_Paragraph params = Return this →
  chrome (_element this)
  = ("DIV", token_add (styles_block (params_api params)) ["ce-paragraph"],
     Some (negb (params_readOnly params)),
     Some (i18n_t (params_api params)
             (default "" (placeholder (params_config params)))),
     negb (params_readOnly params), false).
Proof.
  assert (Hph : match placeholder (params_config params) with
                | Some s => if truthy (VString s) then s else DEFAULT_PLACEHOLDER
                | None => DEFAULT_PLACEHOLDER
                end = default "" (placeholder (params_config params))).
  { destruct (placeholder (params_config params)) as [s|]; [|done].
    cbn. destruct (String.eqb_spec s "") as [->|]; done. }
  unfold new_Paragraph. cbv zeta. rewrite Hph.
  unfold drawView, classList_add, result_bind.
  destruct (tokens_check _); [|done]. intros [= <-]. unfold chrome.
  destruct (params_readOnly params); cbn; by rewrite token_add_nil.
Qed.

(** X18. The view the constructor draws.  The constructor raises a
    [SyntaxError] when the block class of the API is empty and an
    [InvalidCharacterError] when it holds white space, and returns
    otherwise.  The view of a returned instance is a [DIV] that is editable
    and listens to key releases exactly when the block is not read-only,
    that carries the wrapper class and the block class, each once, and
    whose placeholder is the translation of the configured placeholder, of
    the empty string when none or an empty one is configured.  On a
    read-only block a key release does nothing; otherwise it runs
    [onKeyUp]. *)
Theorem constructed_view (textContent : string → string) (e : KeyboardEvent)
    (params : Params) :
  let blk := styles_block (params_api params) in
  let ro := params_readOnly params in
  (∀ this, new_Paragraph params = Return this →
     let el := _element this in
     tagName el = "DIV"
     ∧ contentEditable el = Some (negb ro)
     ∧ on_keyup el = negb ro
     ∧ (∀ x, x ∈ classList el ↔ x = "ce-paragraph" ∨ x = blk)
     ∧ NoDup (classList el)
     ∧ dataset_placeholder el
       = Some (i18n_t (params_api params)
                 (default "" (placeholder (params_config params))))
     ∧ keyup textContent e this
       = (if ro then (tt, this) else onKeyUp textContent e this))
  ∧ (blk = "" → new_Paragraph params = Throw SyntaxError)
  ∧ (blk ≠ "" → has_ascii_ws blk = true →
     new_Paragraph params = Throw InvalidCharacterError)
  ∧ (blk ≠ "" → has_ascii_ws blk = false →
     ∃ this, new_Paragraph params = Return this).
Proof.
  intros blk ro. pose proof (new_Paragraph_check params) as Hck.
  fold blk in Hck. unfold token_check in Hck.
  split_and!.
  - intros this Hn el. apply new_Paragraph_view in Hn. fold blk ro el in Hn.
    unfold chrome in Hn. injection Hn as Htag Hcl Hce Hph Hku Hcm.
    split_and!; try done.
    + intros x. rewrite Hcl, token_add_elem_of, list_elem_of_singleton. tauto.
    + rewrite Hcl. unfold token_add. case_decide as Hin.
      * apply NoDup_singleton.
      * apply NoDup_app.
        split_and!; [apply NoDup_singleton | | apply NoDup_singleton].
        intros x Hx Hx'. apply list_elem_of_singleton in Hx, Hx'. subst.
        apply Hin. by apply list_elem_of_singleton.
    + unfold keyup. fold el. rewrite Hku. by destruct ro.
  - intros Hb. rewrite Hb in Hck. exact Hck.
  - intros Hb Hw. destruct (String.eqb_spec blk "") as [|_]; [done|].
    by rewrite Hw in Hck.
  - intros Hb Hw. destruct (String.eqb_spec blk "") as [|_]; [done|].
    by rewrite Hw in Hck.
Qed.

(** ** Conversion *)

(** X19. Conversion from and to this tool drops [speakable] and keeps the
    text as far as the DOM reads it back: the string exported from what a
    block saves is the markup of its surface, and a block constructed from
    that string, imported, shows what the DOM reads back for it, the same
    markup whenever that is read back unchanged, and saves what it shows
    with no [speakable] value. *)
Theorem conversion_roundtrip (this : Paragraph) (params : Params)
    (fresh : Paragraph) :
  let html := innerHTML (_element this) in
  conversion_export (save (_element this) this).1 = VString html
  ∧ (new_Paragraph params = Return fresh →
     params_data params = Some (conversion_import html) →
     innerHTML (_element fresh) = read_back html
     ∧ (save (_element fresh) fresh).1
       = {[ "text" := VString (read_back html); "speakable" := VUndefined ]}
     ∧ (read_back html = html →
        (save (_element fresh) fresh).1
        = {[ "text" := VString html; "speakable" := VUndefined ]})).
Proof.
  intros html. split.
  - unfold conversion_export, prop. rewrite save_result.
    cbn [conversionConfig fst]. by rewrite lookup_insert_eq.
  - intros Hn Hd.
    apply new_Paragraph_returns in Hn as (_ & _ & Hdata & _ & _ & Hm).
    assert (Hm' : innerHTML (_element fresh) = read_back html).
    { rewrite Hm, Hd. cbn [default from_option id].
      unfold conversion_import, prop. cbn [conversionConfig snd].
      rewrite lookup_singleton_eq. cbn [default from_option id].
      by rewrite to_string_or_empty. }
    assert (Hs : (save (_element fresh) fresh).1
                 = {[ "text" := VString (read_back html); "speakable" := VUndefined ]}).
    { rewrite save_result, Hm', Hdata, Hd.
      cbn [default from_option id]. unfold conversion_import, prop.
      cbn [conversionConfig snd]. by rewrite lookup_singleton_ne. }
    split_and!; [done | done |]. intros Hr. by rewrite Hs, Hr.
Qed.

End WithDOM.

(** * The theorems at sample inputs

    The DOM of the examples is [sample_reserialize] with the plain-text
    view [strip_tags]. *)

(** [set({text: "<b>Hi</b>", speakable: true})], whose text is read back
    unchanged, and [set()] with no argument. *)
Lemma set_get_roundtrip_witness :
  (get_data (set_data sample_reserialize
               (Some {[ "text" := VString "<b>Hi</b>"; "speakable" := VBool true ]})
               (sample_block sample_reserialize None)).2).1 !! "text"
  = Some (VString "<b>Hi</b>")
  ∧ (get_data (set_data sample_reserialize None
                 (sample_block sample_reserialize None)).2).1 !! "text"
    = Some (VString "").
Proof.
  split.
  - exact (proj1 (proj2 (proj2
             (set_get_roundtrip sample_reserialize
                (sample_block sample_reserialize None)
                (Some {[ "text" := VString "<b>Hi</b>"; "speakable" := VBool true ]}))))
             "<b>Hi</b>" eq_refl eq_refl).
  - exact (proj1 (proj2 (proj2 (proj2
             (set_get_roundtrip sample_reserialize
                (sample_block sample_reserialize None) None))))
             eq_refl).
Defined.

(** C1, as the claim states it, fails: after [set({text: "a & b"})], [get]
    returns the text ["a &amp; b"]. *)
Lemma set_get_reserialized :
  (get_data (set_data sample_reserialize (Some {[ "text" := VString "a & b" ]})
               (sample_block sample_reserialize None)).2).1 !! "text"
  = Some (VString "a &amp; b")
  ∧ (get_data (set_data sample_reserialize (Some {[ "text" := VString "a & b" ]})
                 (sample_block sample_reserialize None)).2).1 !! "text"
    ≠ Some (VString "a & b").
Proof. split; vm_compute; [reflexivity | discriminate]. Qed.

(** Pasting a [P] element with content ["Hi"] into a block that had
    [speakable: true]. *)
Lemma onPaste_replaces_witness :
  let this :=
    sample_block sample_reserialize
      (Some {[ "text" := VString "old"; "speakable" := VBool true ]}) in
  let event := {| detail_data := with_innerHTML "Hi" (createElement "P") |} in
  (get_data (onPaste sample_reserialize event this).2).1 = {[ "text" := VString "Hi" ]}.
Proof.
  exact (proj1 (proj2 (proj2
           (onPaste_replaces sample_reserialize
              (sample_block sample_reserialize
                 (Some {[ "text" := VString "old"; "speakable" := VBool true ]}))
              {| detail_data := with_innerHTML "Hi" (createElement "P") |})))
           eq_refl).
Defined.

(** C6, as the claim states it, fails: after a paste of an element whose
    markup is [<pre>], a line feed, [x</pre>], [get] returns the text
    [<pre>x</pre>], not the markup of the element. *)
Lemma onPaste_reserialized :
  let html := "<pre>" +:+ String "010" "x</pre>" in
  let event := {| detail_data := with_innerHTML html (createElement "P") |} in
  let after := (onPaste sample_reserialize event (sample_block sample_reserialize None)).2 in
  _data after !! "text" = Some (VString html)
  ∧ (get_data after).1 !! "text" = Some (VString "<pre>x</pre>")
  ∧ (get_data after).1 !! "text" ≠ Some (VString html).
Proof. split_and!; vm_compute; [reflexivity | reflexivity | discriminate]. Qed.

(** [merge({text: "World"})] on a block whose text is ["Hello "]. *)
Lemma merge_concat_witness :
  let this :=
    sample_block sample_reserialize
      (Some {[ "text" := VString "Hello "; "speakable" := VBool true ]}) in
  let after := (merge sample_reserialize {[ "text" := VString "World" ]} this).2 in
  prop (_data after) "text" = VString "Hello World"
  ∧ prop (_data after) "speakable" = VBool true.
Proof.
  exact (merge_concat sample_reserialize
           (sample_block sample_reserialize
              (Some {[ "text" := VString "Hello "; "speakable" := VBool true ]}))
           {[ "text" := VString "World" ]} "World" eq_refl).
Defined.

(** [validate({text: "   ", speakable: false})] under the default
    configuration, and [validate({text: "", speakable: false})] with
    [preserveBlank: true]. *)
Lemma validate_policy_witness :
  validate {[ "text" := VString "   "; "speakable" := VBool false ]}
           (sample_block sample_reserialize None)
  = Return false
  ∧ validate {[ "text" := VString ""; "speakable" := VBool false ]}
             (sample_block_keep_blank sample_reserialize None)
    = Return true.
Proof.
  split.
  - apply (validate_policy sample_reserialize (sample_block sample_reserialize None)
             {[ "text" := VString "   "; "speakable" := VBool false ]} "   ");
      reflexivity.
  - apply (validate_policy sample_reserialize
             (sample_block_keep_blank sample_reserialize None)
             {[ "text" := VString ""; "speakable" := VBool false ]} "");
      reflexivity.
Defined.

(** C8, as the claim states it, fails: [validate({})] raises. *)
Lemma validate_absent_text_raises :
  validate ∅ (sample_block sample_reserialize None) = Throw TypeError.
Proof. reflexivity. Qed.

(** Backspace in a block whose surface holds a stray [<br>]. *)
Lemma onKeyUp_normalizes_witness :
  let this := sample_block sample_reserialize (Some {[ "text" := VString "<br>" ]}) in
  let after :=
    (onKeyUp sample_reserialize (strip_tags false) {| code := "Backspace" |} this).2 in
  innerHTML (_element this) = "<br>"
  ∧ innerHTML (_element after) = ""
  ∧ (save (_element after) after).1 !! "text" = Some (VString "").
Proof.
  split; [reflexivity|].
  apply (onKeyUp_normalizes sample_reserialize (strip_tags false)
           {| code := "Backspace" |}
           (sample_block sample_reserialize (Some {[ "text" := VString "<br>" ]})));
    [left|]; reflexivity.
Defined.

(** [set({text: "Hello"})] on a block that shows ["old"]: the text is read
    back unchanged, so surface and record agree. *)
Lemma lifecycle_consistent_witness :
  consistent (run sample_reserialize (DataSet (Some {[ "text" := VString "Hello" ]}))
                  (sample_block sample_reserialize (Some {[ "text" := VString "old" ]}))).
Proof.
  apply (proj1 (proj2 (lifecycle_consistent sample_reserialize))).
  - exact (proj1 (lifecycle_consistent sample_reserialize)
             (DataSet (Some {[ "text" := VString "Hello" ]}))
             (sample_block sample_reserialize (Some {[ "text" := VString "old" ]}))).
  - right. exists "Hello". reflexivity.
  - reflexivity.
Defined.

(** C9, as the claim states it, fails: after [set({text: "a & b"})] the
    record holds ["a & b"] and the surface ["a &amp; b"]. *)
Lemma set_data_not_consistent :
  let after :=
    run sample_reserialize (DataSet (Some {[ "text" := VString "a & b" ]}))
        (sample_block sample_reserialize None) in
  _data after !! "text" = Some (VString "a & b")
  ∧ innerHTML (_element after) = "a &amp; b"
  ∧ ¬ consistent after.
Proof.
  split_and!; [reflexivity | reflexivity |].
  unfold consistent. vm_compute. discriminate.
Qed.

Lemma load_save_roundtrip_witness :
  (save (render (sample_block sample_reserialize
                   (Some {[ "text" := VString "Hi"; "level" := VBool true ]}))).1
        (sample_block sample_reserialize
           (Some {[ "text" := VString "Hi"; "level" := VBool true ]}))).1
  = {[ "text" := VString "Hi"; "speakable" := VUndefined ]}
  ∧ (save (render (sample_block sample_reserialize None)).1
          (sample_block sample_reserialize None)).1
    = {[ "text" := VString ""; "speakable" := VUndefined ]}.
Proof.
  split.
  - exact (proj1 (proj2
             (load_save_roundtrip sample_reserialize
                (sample_params (Some {[ "text" := VString "Hi"; "level" := VBool true ]}))
                (sample_block sample_reserialize
                   (Some {[ "text" := VString "Hi"; "level" := VBool true ]}))
                eq_refl))
             "Hi" eq_refl eq_refl).
  - exact (proj2 (proj2
             (load_save_roundtrip sample_reserialize (sample_params None)
                (sample_block sample_reserialize None) eq_refl))
             eq_refl).
Defined.

Lemma save_reload_fixpoint_witness :
  let this :=
    sample_block sample_reserialize
      (Some {[ "text" := VString "a<br>b"; "speakable" := VBool true ]}) in
  let fresh :=
    sample_block_keep_blank sample_reserialize (Some (save (_element this) this).1) in
  (save (_element fresh) fresh).1 = (save (_element this) this).1.
Proof.
  exact (save_reload_fixpoint sample_reserialize
           (sample_block sample_reserialize
              (Some {[ "text" := VString "a<br>b"; "speakable" := VBool true ]}))
           (sample_params_keep_blank
              (Some (save (_element (sample_block sample_reserialize
                                       (Some {[ "text" := VString "a<br>b";
                                                "speakable" := VBool true ]})))
                          (sample_block sample_reserialize
                             (Some {[ "text" := VString "a<br>b";
                                      "speakable" := VBool true ]}))).1))
           _ eq_refl eq_refl eq_refl).
Defined.

(** Merging ["b"] and then ["c"] into a block that shows ["a"]. *)
Lemma merge_merge_witness :
  let this := sample_block sample_reserialize (Some {[ "text" := VString "a" ]}) in
  (merge sample_reserialize {[ "text" := VString "c" ]}
     (merge sample_reserialize {[ "text" := VString "b" ]} this).2).2
  = (merge sample_reserialize {[ "text" := VString "bc" ]} this).2.
Proof.
  exact (proj2 (merge_merge sample_reserialize
                  {[ "text" := VString "b" ]} {[ "text" := VString "c" ]}
                  (sample_block sample_reserialize (Some {[ "text" := VString "a" ]})))
               eq_refl).
Defined.

Lemma merge_missing_text_witness :
  _data (merge sample_reserialize {[ "speakable" := VBool true ]}
           (sample_block sample_reserialize (Some {[ "text" := VString "Hello " ]}))).2
    !! "text"
  = Some (VString "Hello undefined").
Proof.
  exact (merge_missing_text sample_reserialize {[ "speakable" := VBool true ]}
           (sample_block sample_reserialize (Some {[ "text" := VString "Hello " ]}))
           eq_refl).
Defined.

Lemma setSpeakable_all_keeps_witness :
  _data (setSpeakable_all sample_reserialize [VBool false; VBool true; VBool false]
           (sample_block sample_reserialize
              (Some {[ "text" := VString "a"; "speakable" := VBool true ]})))
    !! "speakable"
  = Some (VBool true).
Proof.
  exact (setSpeakable_all_keeps sample_reserialize
           [VBool false; VBool true; VBool false] (VBool true)
           (sample_block sample_reserialize
              (Some {[ "text" := VString "a"; "speakable" := VBool true ]}))
           eq_refl).
Defined.

Lemma setSpeakable_before_renderSettings_witness :
  (setSpeakable sample_reserialize (VBool true)
     (sample_block sample_reserialize (Some {[ "text" := VString "a" ]}))).1
  = Throw TypeError
  ∧ _data (setSpeakable sample_reserialize (VBool true)
             (sample_block sample_reserialize (Some {[ "text" := VString "a" ]}))).2
      !! "speakable"
    = Some (VBool true).
Proof.
  exact (setSpeakable_before_renderSettings sample_reserialize (VBool true)
           (sample_params (Some {[ "text" := VString "a" ]}))
           (sample_block sample_reserialize (Some {[ "text" := VString "a" ]}))
           eq_refl).
Defined.

Lemma read_synced_noop_witness :
  get_data (sample_block sample_reserialize (Some {[ "text" := VString "a" ]}))
  = (_data (sample_block sample_reserialize (Some {[ "text" := VString "a" ]})),
     sample_block sample_reserialize (Some {[ "text" := VString "a" ]})).
Proof.
  exact (proj1 (read_synced_noop (createElement "DIV")
                  (sample_block sample_reserialize (Some {[ "text" := VString "a" ]}))
                  eq_refl)).
Defined.

(** The sample block, and the constructor with an empty block class and
    with one that holds a space. *)
Lemma constructed_view_witness :
  contentEditable (_element (sample_block sample_reserialize None)) = Some true
  ∧ new_Paragraph sample_reserialize
      {| params_data := None;
         params_config := {| placeholder := None; preserveBlank := None |};
         params_api := {| styles_block := ""; i18n_t := λ s, s |};
         params_readOnly := false |}
    = Throw SyntaxError
  ∧ new_Paragraph sample_reserialize
      {| params_data := None;
         params_config := {| placeholder := None; preserveBlank := None |};
         params_api := {| styles_block := "cdx block"; i18n_t := λ s, s |};
         params_readOnly := false |}
    = Throw InvalidCharacterError.
Proof.
  split_and!.
  - exact (proj1 (proj2
             (proj1 (constructed_view sample_reserialize (strip_tags false)
                       {| code := "Enter" |} (sample_params None))
                    (sample_block sample_reserialize None) eq_refl))).
  - exact (proj1 (proj2
             (constructed_view sample_reserialize (strip_tags false)
                {| code := "Enter" |}
                {| params_data := None;
                   params_config := {| placeholder := None; preserveBlank := None |};
                   params_api := {| styles_block := ""; i18n_t := λ s, s |};
                   params_readOnly := false |}))
             eq_refl).
  - refine (proj1 (proj2 (proj2
             (constructed_view sample_reserialize (strip_tags false)
                {| code := "Enter" |}
                {| params_data := None;
                   params_config := {| placeholder := None; preserveBlank := None |};
                   params_api := {| styles_block := "cdx block"; i18n_t := λ s, s |};
                   params_readOnly := false |})))
             _ eq_refl).
    discriminate.
Defined.

Lemma conversion_roundtrip_witness :
  let fresh := sample_block sample_reserialize (Some (conversion_import "a<br>b")) in
  innerHTML (_element fresh) = "a<br>b"
  ∧ (save (_element fresh) fresh).1
    = {[ "text" := VString "a<br>b"; "speakable" := VUndefined ]}.
Proof.
  pose proof (proj2 (conversion_roundtrip sample_reserialize
                       (sample_block sample_reserialize
                          (Some {[ "text" := VString "a<br>b";
                                   "speakable" := VBool true ]}))
                       (sample_params (Some (conversion_import "a<br>b")))
                       (sample_block sample_reserialize
                          (Some (conversion_import "a<br>b"))))
                    eq_refl eq_refl) as (H1 & _ & H3).
  split; [exact H1 | exact (H3 eq_refl)].
Defined.
